(** * NNLab: the network compiler of [nlab/models.py]

    A shallow embedding of [Layer.construct] (the parameter binder) and
    [Network.construct] / [Network._overwrite] (the program assembler with
    its forward emitter), followed by the properties of the specification
    that concern them.

    Conventions.
    - Python [str] is [string] (ASCII text); string concatenation is [+:+].
    - A Python exception is a value of [exn]; code that may raise returns
      [result A = exn + A], sequenced with [let* x := m in k].
    - The file system touched by [_overwrite] is a finite map from paths to
      file contents, threaded explicitly through [Network.construct]; what
      the operating system does on [open] and [write] is a parameter [os]. *)

From Stdlib Require Import String Ascii List ZArith Bool Lia.
From stdpp Require Import gmap strings pretty.

Open Scope string_scope.
Set Warnings "-register-all".

(** ** Python values, exceptions and the error monad *)

Inductive exn : Type :=
| KeyError (key : string)
| ValueError (msg : string)
| IndexError
| TypeError
| JSONDecodeError
| NotImplementedError
| UnboundLocalError (var : string)
| AttributeError (attr : string)
| DoesNotExist
| UnicodeEncodeError
| OSError (errno : string).

(** [isinstance(e, ValueError)]: [json.JSONDecodeError] and
    [UnicodeEncodeError] are subclasses of [ValueError]. *)
Definition is_ValueError (e : exn) : bool :=
  match e with
  | ValueError _ | JSONDecodeError | UnicodeEncodeError => true
  | _ => false
  end.

(** What the operating system does when a file is opened with mode w and
    a text is written to it. *)
Inductive io : Type :=
| Written
| OpenFails (e : exn)
| WriteFails (e : exn) (reached : nat).

Definition result (A : Type) : Type := (exn + A)%type.

Definition ret {A : Type} (a : A) : result A := inr a.
Definition raise {A : Type} (e : exn) : result A := inl e.
Definition bind {A B : Type} (m : result A) (k : A -> result B) : result B :=
  match m with
  | inl e => inl e
  | inr a => k a
  end.

Notation "'let*' x := m 'in' k" := (bind m (fun x => k))
  (at level 10, x pattern, m at level 100, k at level 200).

(** [for x in l: s = body(s, x)], stopping at the first exception. *)
Fixpoint for_each {A S : Type} (body : S -> A -> result S) (l : list A) (s : S)
  : result S :=
  match l with
  | [] => ret s
  | x :: l' => let* s' := body s x in for_each body l' s'
  end.

(** [[f(x) for x in l]]. *)
Fixpoint comprehension {A B : Type} (f : A -> result B) (l : list A)
  : result (list B) :=
  match l with
  | [] => ret []
  | x :: l' => let* y := f x in let* ys := comprehension f l' in ret (y :: ys)
  end.

(** [enumerate(l)], counting from [start]. *)
Fixpoint enumerate_from {A : Type} (start : nat) (l : list A) : list (nat * A) :=
  match l with
  | [] => []
  | x :: l' => (start, x) :: enumerate_from (S start) l'
  end.

Definition enumerate {A : Type} (l : list A) : list (nat * A) := enumerate_from 0 l.

Definition nl : string := String "010"%char EmptyString.
Definition tab : string := String "009"%char EmptyString.

(** [str.lower()] on ASCII text. *)
Definition lower_ascii (c : ascii) : ascii :=
  let n := nat_of_ascii c in
  if (65 <=? n)%nat && (n <=? 90)%nat then ascii_of_nat (n + 32) else c.

Fixpoint lower (s : string) : string :=
  match s with
  | EmptyString => EmptyString
  | String c s' => String (lower_ascii c) (lower s')
  end.

(** Values that occur as parameter values and as edge sources; [py_str] is
    what an f-string placeholder [{v}] prints. *)
Inductive pyval : Type :=
| PyNone
| PyBool (b : bool)
| PyInt (z : Z)
| PyStr (s : string).

Definition py_str (v : pyval) : string :=
  match v with
  | PyNone => "None"
  | PyBool true => "True"
  | PyBool false => "False"
  | PyInt z => pretty z
  | PyStr s => s
  end.

(** [{field}] for a nullable [CharField]. *)
Definition fstr (o : option string) : string :=
  match o with
  | Some s => s
  | None => "None"
  end.

(** [d[key]] on a dict with [str] keys held as an association list. *)
Fixpoint dict_get {V : Type} (d : list (string * V)) (key : string) : result V :=
  match d with
  | [] => raise (KeyError key)
  | (k, v) :: d' => if String.eqb k key then ret v else dict_get d' key
  end.

(** ** Values returned by [json.loads] and the operations the code applies
       to them *)

Inductive json : Type :=
| JNull
| JBool (b : bool)
| JNum (z : Z)
| JStr (s : string)
| JArr (items : list json)
| JObj (members : list (string * json)).
(* [JObj] lists the members of the parsed object, whose keys are distinct. *)

(** The text of a JSON [CharField] is represented by its parse: [None] is
    text that [json.loads] rejects. *)
Definition json_loads (text : option json) : result json :=
  match text with
  | Some j => ret j
  | None => raise JSONDecodeError
  end.

(** [j[key]] for a [str] key. *)
Definition getitem_str (j : json) (key : string) : result json :=
  match j with
  | JObj members => dict_get members key
  | _ => raise TypeError
  end.

Definition chars (s : string) : list json :=
  map (fun c => JStr (String c EmptyString)) (list_ascii_of_string s).

(** [for x in j]. *)
Definition py_iter (j : json) : result (list json) :=
  match j with
  | JArr items => ret items
  | JObj members => ret (map (fun m => JStr (fst m)) members)
  | JStr s => ret (chars s)
  | _ => raise TypeError
  end.

(** [j[0]]. *)
Definition getitem_0 (j : json) : result json :=
  match j with
  | JArr (x :: _) => ret x
  | JArr [] => raise IndexError
  | JStr (String c _) => ret (JStr (String c EmptyString))
  | JStr EmptyString => raise IndexError
  | JObj _ => raise (KeyError "0")
  | _ => raise TypeError
  end.

(** [key == j] for a [str] key. *)
Definition str_eq (key : string) (j : json) : bool :=
  match j with
  | JStr s => String.eqb key s
  | _ => false
  end.

(** [key in l]. *)
Definition py_in (key : string) (l : list json) : bool := existsb (str_eq key) l.

(** [len(j)]. *)
Definition py_len (j : json) : result nat :=
  match j with
  | JArr items => ret (length items)
  | JObj members => ret (length members)
  | JStr s => ret (String.length s)
  | _ => raise TypeError
  end.

(** The truth value of a nullable [CharField]: [None] and the empty text
    are false. *)
Definition py_bool (o : option string) : bool :=
  match o with
  | Some (String _ _) => true
  | _ => false
  end.

Module models.

(** *** Global constants *)

Definition pytorch : string := "pytorch".
Definition pennylane : string := "pennylane".
Definition tensorflow : string := "tensorflow".

Definition imports : list (string * string) :=
  [(pytorch, "import torch" +:+ nl +:+ "import torch.nn as nn")].

Definition activations : list (string * list (string * string)) :=
  [(pytorch, [("relu", "nn.ReLu()")])].

(** ** class Layer *)
Module Layer.

(** The [store] column is shadowed in the class body by the method [store]
    defined after it, so the record carries no such field. *)
Record t : Type := {
  parameters : option json;
  name : string;
  pytorch : option string;
  pennylane : option string;
  tensorflow : option string;
  id : string
}.

(** A model instance defines neither [__bool__] nor [__len__]. *)
Definition truthy (self : t) : bool := true.

(** Line 55: [[parameter[0] for parameter in json.loads(self.parameters)[mode]]]. *)
Definition possible_parameters (self : t) (mode : string) : result (list json) :=
  let* schema := json_loads (parameters self) in
  let* entries := getitem_str schema mode in
  let* entries := py_iter entries in
  comprehension getitem_0 entries.

(** Lines 57-60. *)
Definition head (self : t) (mode : string) : result string :=
  if String.eqb mode models.pytorch then ret (fstr (pytorch self) +:+ "(")
  else if String.eqb mode models.tensorflow then ret (fstr (pennylane self) +:+ "(")
  else if String.eqb mode models.tensorflow then ret (fstr (tensorflow self) +:+ "(")
  else raise (ValueError ("Invalid construction mode " +:+ mode)).

(** Lines 63-64, the body of the loop over [parameters.items()]. *)
Definition bind_parameter (possible_parameters : list json) (layer : string)
    (item : string * pyval) : string :=
  let '(parameter, value) := item in
  if py_in parameter possible_parameters
  then layer +:+ parameter +:+ "=" +:+ py_str value +:+ ","
  else layer.

(** [parameters] is the dict in iteration order. *)
Definition construct (self : t) (parameters : list (string * pyval)) (mode : string)
  : result string :=
  let* possible_parameters := possible_parameters self mode in
  let* layer := head self mode in
  let layer := fold_left (bind_parameter possible_parameters) parameters layer in
  ret (layer +:+ ")").

Definition store (self : t) : result string := raise NotImplementedError.

(** [len(json.loads(self.parameters)[backend])], as lines 94-96 compute it. *)
Definition count (self : t) (backend : string) : result nat :=
  let* schema := json_loads (parameters self) in
  let* entries := getitem_str schema backend in
  py_len entries.

(** Lines 91-98. *)
Definition __str__ (self : t) : result string :=
  let supports := "" in
  let* supports :=
    if py_bool (pytorch self)
    then let* n := count self models.pytorch in
         ret (supports +:+ " <pytorch> " +:+ pretty n)
    else ret supports in
  let* supports :=
    if py_bool (pennylane self)
    then let* n := count self models.pennylane in
         ret (supports +:+ " <pennylane> " +:+ pretty n)
    else ret supports in
  let* supports :=
    if py_bool (tensorflow self)
    then let* n := count self models.tensorflow in
         ret (supports +:+ " <tensorflow> " +:+ pretty n)
    else ret supports in
  ret (name self +:+ ":" +:+ supports).

End Layer.

(** ** class Network *)
Module Network.

(** An input edge: [None] is the external input, otherwise the pair
    [(layer, activation)] that line 149 unpacks. *)
Definition edge : Type := option (pyval * option string).

(** [layers] and [graph] hold the sequences that the two loops of
    [construct] destructure.  [interpreter_path] is not declared by the
    class: it is [None] unless the attribute was set on the instance. *)
Record t : Type := {
  name : string;
  type : string;
  id : string;
  graph : list (list edge);
  layers : list (string * list (string * pyval));
  loss : option string;
  weights : option string;
  owner : string;
  interpreter_path : option string
}.

(** Line 123, evaluated once in the class body, where [id] is the field
    object declared at line 115: [str_id] is what that object prints as. *)
Definition network_path (parent sep str_id : string) (self : t) : string :=
  parent +:+ sep +:+ "networks" +:+ sep +:+ str_id +:+ ".py".

Section Construct.

(** [Layer.objects.get(type=layer_type)], the read-only template registry;
    an exception it raises ends the pass. *)
Variable objects_get : string -> result Layer.t.

(** The behaviour of the operating system for a path and a text to write:
    [Written] when [open] and the write succeed; [OpenFails e] when [open]
    raises [e], the file being left as it was; [WriteFails e reached] when
    [open] has truncated the file and the write then raises [e], the first
    [reached] characters of the text having reached the file. *)
Variable os : string -> string -> io.

(** Lines 136-139, one iteration of the loop over [enumerate(self.layers)].
    The state is the local [i] and the text [layers]. *)
Definition declare (self : t) (st : option nat * string)
    (item : nat * (string * list (string * pyval))) : result (option nat * string) :=
  let '(_, layers) := st in
  let '(i, (layer_type, parameters)) := item in
  let* layer := objects_get layer_type in
  let* _ :=
    if negb (Layer.truthy layer)
    then raise (ValueError ("Something went wrong! Layer " +:+ pretty i +:+ "["
                            +:+ layer_type +:+ "] does not exist"))
    else ret tt in
  let* construct := Layer.construct layer parameters (lower (type self)) in
  let* store := Layer.store layer in
  ret (Some i,
       layers +:+ nl +:+ tab +:+ tab +:+ "self.layer_" +:+ pretty i +:+ " = " +:+ construct
              +:+ nl +:+ tab +:+ tab +:+ "self.layer_" +:+ pretty i +:+ "_store = " +:+ store).

(** Lines 147-151, one iteration of the loop over [inputs].  The state is
    the pair of texts [(in_, out)]. *)
Definition connect (self : t) (st : string * string) (input_ : edge)
  : result (string * string) :=
  let '(in_, out) := st in
  match input_ with
  | None => ret (in_ +:+ "input,", out)
  | Some (layer, activation) =>
      let* out :=
        match activation with
        | Some activation =>
            let* table := dict_get activations (lower (type self)) in
            let* f := dict_get table (lower activation) in
            ret (out +:+ nl +:+ tab +:+ tab +:+ py_str layer +:+ " = " +:+ f
                     +:+ "(" +:+ py_str layer +:+ ")")
        | None => ret out
        end in
      ret (in_ +:+ py_str layer +:+ ",", out)
  end.

(** The text appended at line 152. *)
Definition statement (i : nat) (in_ out : string) : string :=
  out +:+ nl +:+ tab +:+ tab +:+ "out_" +:+ pretty i +:+ " = self.layer_" +:+ pretty i
      +:+ "(" +:+ in_ +:+ ")"
      +:+ nl +:+ tab +:+ tab +:+ "self.layer_" +:+ pretty i +:+ "_store(out_" +:+ pretty i +:+ ")".

(** Lines 144-152, one iteration of the loop over [enumerate(self.graph)]. *)
Definition execute (self : t) (st : option nat * string) (item : nat * list edge)
  : result (option nat * string) :=
  let '(_, forward) := st in
  let '(i, inputs) := item in
  let* (in_, out) := for_each (connect self) inputs ("", "") in
  ret (Some i, forward +:+ statement i in_ out).

(** The text appended at line 154. *)
Definition return_statement (i : nat) : string :=
  nl +:+ nl +:+ tab +:+ "return out_" +:+ pretty i.

(** Lines 142-154.  [i] is the binding the first loop left behind. *)
Definition forward (self : t) (i : option nat) : result string :=
  let forward := nl +:+ tab +:+ "def forward(self, input):" in
  let* (i, forward) := for_each (execute self) (enumerate (graph self)) (i, forward) in
  match i with
  | Some i => ret (forward +:+ return_statement i)
  | None => raise (UnboundLocalError "i")
  end.

(** Lines 133-163: the text bound to [network] when line 165 is reached. *)
Definition network (self : t) : result string :=
  let* import := dict_get imports (lower (type self)) in
  let network := import +:+ nl +:+ nl +:+ "class " +:+ name self +:+ "(nn.Module):" in
  let layers := nl +:+ tab +:+ "def __init__(self):" +:+ nl +:+ nl +:+ tab
                   +:+ "super().__init__()" in
  let* (i, layers) := for_each (declare self) (enumerate (Network.layers self)) (None, layers) in
  let network := network +:+ layers in
  let* forward := forward self i in
  let network := network +:+ forward in
  let train := nl +:+ nl +:+ nl +:+ "def train():" in
  let network := network +:+ train in
  let test := nl +:+ nl +:+ nl +:+ "def test():" in
  let network := network +:+ test in
  ret network.

(** Lines 167-178.  Reading [self.interpreter_path] comes before [open];
    [open] with mode w creates or truncates the file, or raises and leaves
    it alone; the write then fills it, or raises after part of the text. *)
Definition _overwrite (self : t) (code : string) (fs : gmap string string)
  : gmap string string * result unit :=
  match interpreter_path self with
  | Some path =>
      match os path code with
      | Written => (<[path := code]> fs, ret tt)
      | OpenFails e => (fs, raise e)
      | WriteFails e reached => (<[path := String.substring 0 reached code]> fs, raise e)
      end
  | None => (fs, raise (AttributeError "interpreter_path"))
  end.

(** Lines 126-165. *)
Definition construct (self : t) (fs : gmap string string)
  : gmap string string * result unit :=
  match network self with
  | inr code => _overwrite self code fs
  | inl e => (fs, inl e)
  end.

End Construct.

End Network.

End models.

Import models.

(** ** Closed forms used by the statements below *)

Fixpoint concat_str (l : list string) : string :=
  match l with
  | [] => ""
  | s :: l' => s +:+ concat_str l'
  end.

(** The text one retained parameter contributes to a declaration. *)
Definition binding (item : string * pyval) : string :=
  fst item +:+ "=" +:+ py_str (snd item) +:+ ",".

(** The items of [parameters] whose key is among [possible]. *)
Definition retained (possible : list json) (parameters : list (string * pyval))
  : list (string * pyval) :=
  List.filter (fun item => py_in (fst item) possible) parameters.

(** The argument an edge contributes to the call emitted at line 152. *)
Definition argument (input_ : Network.edge) : string :=
  match input_ with
  | None => "input,"
  | Some (layer, _) => py_str layer +:+ ","
  end.

Definition arguments (inputs : list Network.edge) : string :=
  concat_str (map argument inputs).

(** The activation statement an edge contributes (line 150); empty for an
    edge without activation. *)
Definition rebinding (self : Network.t) (input_ : Network.edge) : result string :=
  match input_ with
  | Some (layer, Some activation) =>
      let* table := dict_get activations (lower (Network.type self)) in
      let* f := dict_get table (lower activation) in
      ret (nl +:+ tab +:+ tab +:+ py_str layer +:+ " = " +:+ f
              +:+ "(" +:+ py_str layer +:+ ")")
  | _ => ret ""
  end.

(** The text one graph entry contributes to the forward routine. *)
Definition block (self : Network.t) (item : nat * list Network.edge) : result string :=
  let* rebindings := comprehension (rebinding self) (snd item) in
  ret (Network.statement (fst item) (arguments (snd item)) (concat_str rebindings)).

(** The binding of the local [i] after a loop over [items]. *)
Definition last_index {A : Type} (i : option nat) (items : list (nat * A)) : option nat :=
  fold_left (fun _ item => Some (fst item)) items i.

(** The activation named on the edge, if any, has an entry for the backend. *)
Definition known (self : Network.t) (input_ : Network.edge) : bool :=
  match rebinding self input_ with
  | inr _ => true
  | inl _ => false
  end.

Definition known_activations (self : Network.t) : bool :=
  forallb (forallb (known self)) (Network.graph self).



(** The argument list as the specification words it: the external symbols
    first, then the bound output names [out_j] of the internal sources. *)
Definition is_external (input_ : Network.edge) : bool :=
  match input_ with
  | None => true
  | Some _ => false
  end.

Definition spec_argument (input_ : Network.edge) : string :=
  match input_ with
  | None => "input,"
  | Some (layer, _) => "out_" +:+ py_str layer +:+ ","
  end.

Definition spec_arguments (inputs : list Network.edge) : string :=
  concat_str (map spec_argument (List.filter is_external inputs))
  +:+ concat_str (map spec_argument (List.filter (fun e => negb (is_external e)) inputs)).

(** The first character of a text, as a text. *)
Definition first_char (s : string) : string :=
  match s with
  | String c _ => String c EmptyString
  | EmptyString => EmptyString
  end.

(** The rebinding statement an edge contributes under the backend pytorch
    when its activation is relu. *)
Definition relu_rebinding (input_ : Network.edge) : string :=
  match input_ with
  | Some (layer, Some _) =>
      nl +:+ tab +:+ tab +:+ py_str layer +:+ " = nn.ReLu()(" +:+ py_str layer +:+ ")"
  | _ => ""
  end.

(** The edge carries no activation, or one whose name is relu up to case. *)
Definition relu_or_plain (input_ : Network.edge) : bool :=
  match input_ with
  | Some (_, Some activation) => String.eqb "relu" (lower activation)
  | _ => true
  end.



(** ** Sample templates *)

Definition dense_schema : json :=
  JObj [("pytorch", JArr [JArr [JStr "units"; JStr "int"]]);
        ("tensorflow", JArr [JArr [JStr "units"; JStr "int"]]);
        ("pennylane", JArr [JArr [JStr "wires"; JStr "int"]])].

Definition dense : Layer.t :=
  {| Layer.parameters := Some dense_schema;
     Layer.name := "Dense";
     Layer.pytorch := Some "nn.Linear";
     Layer.pennylane := Some "qml.Dense";
     Layer.tensorflow := Some "tf.keras.layers.Dense";
     Layer.id := "5f0c" |}.

Definition dense_parameters : list (string * pyval) :=
  [("units", PyInt 10); ("bias", PyBool true)].

(** A template whose schema differs from one backend to the other. *)
Definition conv : Layer.t :=
  {| Layer.parameters :=
       Some (JObj [("pytorch", JArr [JArr [JStr "in_channels"; JStr "int"];
                                     JArr [JStr "kernel_size"; JStr "int"]]);
                   ("tensorflow", JArr [JArr [JStr "filters"; JStr "int"];
                                        JArr [JStr "kernel_size"; JStr "int"]])]);
     Layer.name := "Conv";
     Layer.pytorch := Some "nn.Conv2d";
     Layer.pennylane := Some "qml.Conv";
     Layer.tensorflow := Some "tf.keras.layers.Conv2D";
     Layer.id := "5f11" |}.

Definition conv_parameters : list (string * pyval) :=
  [("in_channels", PyInt 3); ("filters", PyInt 8); ("kernel_size", PyInt 5)].

(** A template whose schema lists bare names, with no callable for
    pennylane and tensorflow. *)
Definition bare : Layer.t :=
  {| Layer.parameters := Some (JObj [("pytorch", JArr [JStr "units"; JStr "bias"])]);
     Layer.name := "Bare";
     Layer.pytorch := Some "nn.Linear";
     Layer.pennylane := None;
     Layer.tensorflow := Some "";
     Layer.id := "5f0d" |}.

(** A template with a schema but no callable for pytorch. *)
Definition uncallable : Layer.t :=
  {| Layer.parameters := Some dense_schema;
     Layer.name := "Ghost";
     Layer.pytorch := None;
     Layer.pennylane := None;
     Layer.tensorflow := None;
     Layer.id := "5f0e" |}.

(** A template whose schema text is not JSON and that has no callable. *)
Definition unparsed : Layer.t :=
  {| Layer.parameters := None;
     Layer.name := "Raw";
     Layer.pytorch := None;
     Layer.pennylane := Some "";
     Layer.tensorflow := None;
     Layer.id := "5f0f" |}.

(** The registry holding the single template [dense] under the name Dense. *)
Definition registry (layer_type : string) : result Layer.t :=
  if String.eqb layer_type "Dense" then ret dense else raise DoesNotExist.

Definition sample (id type : string) (layers : list (string * list (string * pyval)))
    (graph : list (list Network.edge)) (interpreter_path : option string) : Network.t :=
  {| Network.name := "Net";
     Network.type := type;
     Network.id := id;
     Network.graph := graph;
     Network.layers := layers;
     Network.loss := None;
     Network.weights := None;
     Network.owner := "ada";
     Network.interpreter_path := interpreter_path |}.

(** Two instances, the second fed by the first through relu. *)
Definition chain : Network.t :=
  sample "0a1b" "PyTorch"
         [("Dense", dense_parameters); ("Dense", dense_parameters)]
         [[None]; [Some (PyStr "out_0", Some "ReLU")]]
         None.

(** Two instances, the second fed by instance 0 and by the external input. *)
Definition mixed_inputs : list Network.edge := [Some (PyInt 0, None); None].

Definition mixed : Network.t :=
  sample "0a1c" "pytorch"
         [("Dense", dense_parameters); ("Dense", dense_parameters)]
         [[None]; mixed_inputs]
         None.

(** No instance, a graph of one entry; [interpreter_path] as given. *)
Definition hollow (id : string) (interpreter_path : option string) : Network.t :=
  sample id "pytorch" [] [[None]] interpreter_path.

Definition hollow_text : string :=
  "import torch" +:+ nl +:+ "import torch.nn as nn" +:+ nl +:+ nl
  +:+ "class Net(nn.Module):"
  +:+ nl +:+ tab +:+ "def __init__(self):" +:+ nl +:+ nl +:+ tab +:+ "super().__init__()"
  +:+ nl +:+ tab +:+ "def forward(self, input):"
  +:+ nl +:+ tab +:+ tab +:+ "out_0 = self.layer_0(input,)"
  +:+ nl +:+ tab +:+ tab +:+ "self.layer_0_store(out_0)"
  +:+ nl +:+ nl +:+ tab +:+ "return out_0"
  +:+ nl +:+ nl +:+ nl +:+ "def train():"
  +:+ nl +:+ nl +:+ nl +:+ "def test():".

(** No instance and no graph entry. *)
Definition empty (type : string) : Network.t := sample "0a20" type [] [] None.

(** One instance of Dense for the backend tensorflow. *)
Definition tf_single : Network.t :=
  sample "0a21" "tensorflow" [("Dense", dense_parameters)] [[None]] None.

(** A file system holding one earlier artifact. *)
Definition disk : gmap string string := {[ "networks/net.py" := "import torch" ]}.

(** An operating system on which every open and write succeeds. *)
Definition no_faults (path code : string) : io := Written.

(** An operating system on which the directory networks exists and no
    other, and on which no character of a text reaches the file. *)
Definition full_disk (path code : string) : io :=
  if String.prefix "networks/" path
  then WriteFails (OSError "ENOSPC") 0
  else OpenFails (OSError "ENOENT").



(** ** Strings *)

Lemma append_assoc (a b c : string) : (a +:+ b) +:+ c = a +:+ b +:+ c.
Proof.
  induction a as [|x a IH]; [reflexivity|].
  change (String x ((a +:+ b) +:+ c) = String x (a +:+ b +:+ c)).
  now rewrite IH.
Qed.

Lemma append_empty_r (a : string) : a +:+ "" = a.
Proof.
  induction a as [|x a IH]; [reflexivity|].
  change (String x (a +:+ "") = String x a).
  now rewrite IH.
Qed.

Lemma append_empty_l (a : string) : "" +:+ a = a.
Proof. reflexivity. Qed.

Lemma concat_str_app (l1 l2 : list string) :
  concat_str (l1 ++ l2) = concat_str l1 +:+ concat_str l2.
Proof.
  induction l1 as [|s l1 IH]; [reflexivity|].
  cbn [concat_str app]. now rewrite IH, append_assoc.
Qed.

(** ** The parameter binder *)

Lemma py_in_In (key : string) (possible : list json) :
  py_in key possible = true <-> In (JStr key) possible.
Proof.
  unfold py_in. rewrite existsb_exists. split.
  - intros [j [Hj He]]. destruct j; simpl in He; try discriminate.
    apply String.eqb_eq in He. now subst.
  - intros H. exists (JStr key). split; [exact H|]. simpl. apply String.eqb_refl.
Qed.

Lemma fold_bind_parameter (possible : list json) (parameters : list (string * pyval))
    (layer : string) :
  fold_left (Layer.bind_parameter possible) parameters layer
  = layer +:+ concat_str (map binding (retained possible parameters)).
Proof.
  revert layer. induction parameters as [|[k v] ps IH]; intros layer.
  - simpl. now rewrite append_empty_r.
  - cbn [fold_left]. rewrite IH. unfold retained. cbn [List.filter fst].
    unfold Layer.bind_parameter.
    destruct (py_in k possible); [|reflexivity].
    cbn [map concat_str]. unfold binding at 2. cbn [fst snd].
    now rewrite !append_assoc.
Qed.

Lemma retained_keys (possible : list json) (parameters : list (string * pyval))
    (key : string) :
  In key (map fst (retained possible parameters))
  <-> In key (map fst parameters) /\ In (JStr key) possible.
Proof.
  unfold retained. rewrite !in_map_iff. split.
  - intros [[k v] [Hk Hin]]. apply filter_In in Hin as [Hin Hp].
    simpl in *. subst k. split; [|now apply py_in_In].
    exists (key, v). now split.
  - intros [[[k v] [Hk Hin]] Hp]. simpl in Hk. subst k.
    exists (key, v). split; [reflexivity|].
    apply filter_In. split; [exact Hin|]. now apply py_in_In.
Qed.








(** The declarations of [conv] in the two modes that bind. *)
Example conv_declarations :
  Layer.construct conv conv_parameters "pytorch"
  = inr "nn.Conv2d(in_channels=3,kernel_size=5,)"
  /\ Layer.construct conv conv_parameters "tensorflow"
     = inr "qml.Conv(filters=8,kernel_size=5,)".
Proof. split; reflexivity. Qed.

(** The head of the expression, per backend identifier. *)
Lemma head_pytorch (self : Layer.t) :
  Layer.head self pytorch = inr (fstr (Layer.pytorch self) +:+ "(").
Proof. reflexivity. Qed.

Lemma head_tensorflow (self : Layer.t) :
  Layer.head self tensorflow = inr (fstr (Layer.pennylane self) +:+ "(").
Proof. reflexivity. Qed.

Lemma head_pennylane (self : Layer.t) :
  Layer.head self pennylane = inl (ValueError "Invalid construction mode pennylane").
Proof. reflexivity. Qed.

(** C2. On a template that carries a callable and a schema for each of the
    three backends, mode [tensorflow] yields the pennylane callable and mode
    [pennylane] raises [ValueError]; only mode [pytorch] yields its own. *)
Theorem construct_backend_callable :
  Layer.construct dense dense_parameters "pytorch" = inr "nn.Linear(units=10,)"
  /\ Layer.construct dense dense_parameters "tensorflow" = inr "qml.Dense(units=10,)"
  /\ Layer.construct dense [("wires", PyInt 2)] "pennylane"
     = inl (ValueError "Invalid construction mode pennylane").
Proof. repeat split; reflexivity. Qed.

(** ** The forward emitter *)

Lemma connect_closed (self : Network.t) (in_ out : string) (input_ : Network.edge) :
  Network.connect self (in_, out) input_
  = let* r := rebinding self input_ in ret (in_ +:+ argument input_, out +:+ r).
Proof.
  destruct input_ as [[layer [activation|]]|]; cbn [Network.connect rebinding argument bind ret].
  - destruct (dict_get activations (lower (Network.type self))) as [e|table];
      [reflexivity|].
    cbn [bind]. destruct (dict_get table (lower activation)); reflexivity.
  - now rewrite append_empty_r.
  - now rewrite append_empty_r.
Qed.

Lemma for_each_connect (self : Network.t) (inputs : list Network.edge) (in_ out : string) :
  for_each (Network.connect self) inputs (in_, out)
  = let* rs := comprehension (rebinding self) inputs in
    ret (in_ +:+ arguments inputs, out +:+ concat_str rs).
Proof.
  revert in_ out. induction inputs as [|e inputs IH]; intros in_ out.
  - cbn. now rewrite !append_empty_r.
  - cbn [for_each comprehension]. rewrite connect_closed.
    destruct (rebinding self e) as [x|r]; [reflexivity|].
    cbn [bind ret]. rewrite IH.
    destruct (comprehension (rebinding self) inputs) as [x|rs]; [reflexivity|].
    cbn [bind ret concat_str]. unfold arguments. cbn [map concat_str].
    now rewrite !append_assoc.
Qed.

Lemma execute_closed (self : Network.t) (i0 : option nat) (forward : string)
    (item : nat * list Network.edge) :
  Network.execute self (i0, forward) item
  = let* b := block self item in ret (Some (fst item), forward +:+ b).
Proof.
  destruct item as [i inputs]. unfold Network.execute, block. cbn [fst snd].
  rewrite for_each_connect.
  destruct (comprehension (rebinding self) inputs) as [x|rs]; [reflexivity|].
  cbn [bind ret]. now rewrite !append_empty_l.
Qed.

Lemma for_each_execute (self : Network.t) (items : list (nat * list Network.edge))
    (i0 : option nat) (forward : string) :
  for_each (Network.execute self) items (i0, forward)
  = let* bs := comprehension (block self) items in
    ret (last_index i0 items, forward +:+ concat_str bs).
Proof.
  revert i0 forward. induction items as [|item items IH]; intros i0 forward.
  - cbn. now rewrite append_empty_r.
  - cbn [for_each comprehension]. rewrite execute_closed.
    destruct (block self item) as [x|b]; [reflexivity|].
    cbn [bind ret]. rewrite IH.
    destruct (comprehension (block self) items) as [x|bs]; [reflexivity|].
    cbn [bind ret concat_str last_index fold_left]. now rewrite append_assoc.
Qed.

Lemma forward_closed (self : Network.t) (i : option nat) :
  Network.forward self i
  = let* bs := comprehension (block self) (enumerate (Network.graph self)) in
    match last_index i (enumerate (Network.graph self)) with
    | Some k => ret (nl +:+ tab +:+ "def forward(self, input):" +:+ concat_str bs
                        +:+ Network.return_statement k)
    | None => raise (UnboundLocalError "i")
    end.
Proof.
  unfold Network.forward. rewrite for_each_execute.
  destruct (comprehension (block self) (enumerate (Network.graph self))) as [x|bs];
    [reflexivity|].
  cbn [bind ret]. destruct (last_index i (enumerate (Network.graph self))); [|reflexivity].
  unfold ret. now rewrite !append_assoc.
Qed.


Lemma last_index_enumerate_from {A : Type} (i : option nat) (start : nat) (l : list A) :
  l <> [] -> last_index i (enumerate_from start l) = Some (start + length l - 1).
Proof.
  revert i start. induction l as [|x l IH]; intros i start Hne; [congruence|].
  unfold last_index. cbn [enumerate_from fold_left fst length].
  destruct l as [|y l].
  - cbn. f_equal. lia.
  - fold (last_index (Some start) (enumerate_from (S start) (y :: l))).
    rewrite IH by discriminate. f_equal. cbn [length]. lia.
Qed.

Lemma last_index_empty {A : Type} (i : option nat) :
  last_index i (@nil (nat * A)) = i.
Proof. reflexivity. Qed.

Lemma comprehension_total {A B : Type} (f : A -> result B) (l : list A) :
  forallb (fun x => match f x with inr _ => true | inl _ => false end) l = true ->
  exists ys : list B, comprehension f l = inr ys /\ length ys = length l.
Proof.
  induction l as [|x l IH]; intros H.
  - exists []. now split.
  - cbn [forallb] in H. apply andb_true_iff in H as [Hx Hl].
    destruct (IH Hl) as [ys [Hys Hlen]].
    cbn [comprehension]. destruct (f x) as [e|y]; [discriminate|].
    exists (y :: ys). cbn [bind ret]. rewrite Hys. cbn [bind ret length].
    split; [reflexivity|now rewrite Hlen].
Qed.

Lemma block_total (self : Network.t) (i : nat) (inputs : list Network.edge) :
  forallb (known self) inputs = true ->
  exists out : string,
    block self (i, inputs) = inr (Network.statement i (arguments inputs) out).
Proof.
  intros H. destruct (comprehension_total (rebinding self) inputs H) as [rs [Hrs _]].
  exists (concat_str rs). unfold block. cbn [fst snd]. now rewrite Hrs.
Qed.

Lemma blocks_total (self : Network.t) (start : nat) (graph : list (list Network.edge)) :
  forallb (forallb (known self)) graph = true ->
  forallb (fun item => match block self item with inr _ => true | inl _ => false end)
          (enumerate_from start graph) = true.
Proof.
  revert start. induction graph as [|inputs graph IH]; intros start H; [reflexivity|].
  cbn [forallb] in H. apply andb_true_iff in H as [Hx Hl].
  cbn [enumerate_from forallb]. rewrite (IH _ Hl), andb_true_r.
  destruct (block_total self start inputs Hx) as [out Hout]. now rewrite Hout.
Qed.




(** C4, as stated, fails: for the edges [(0, None), None] of instance 1 the
    call lists the internal source before the external symbol, and the
    internal edge contributes the token [0] stored on it, where the
    specification has [input,out_0,]. *)
Lemma arguments_follow_edge_order :
  Network.execute mixed (Some 0, "") (1, mixed_inputs)
  = inr (Some 1, nl +:+ tab +:+ tab +:+ "out_1 = self.layer_1(0,input,)"
                 +:+ nl +:+ tab +:+ tab +:+ "self.layer_1_store(out_1)")
  /\ spec_arguments mixed_inputs = "input,out_0,"
  /\ arguments mixed_inputs <> spec_arguments mixed_inputs.
Proof. split; [reflexivity|]. split; [reflexivity|]. discriminate. Qed.

(** C4, amended. When the activation names on the edges of instance [i] are
    known to the backend, the execution statement emitted for [i] calls
    [self.layer_i] with one argument per edge, in edge order: the symbol
    [input] for an external edge, the source token stored on the edge,
    printed as it is, for an internal one. *)
Theorem execute_call_arguments (self : Network.t) (i0 : option nat) (forward : string)
    (i : nat) (inputs : list Network.edge) :
  forallb (known self) inputs = true ->
  exists out : string,
    Network.execute self (i0, forward) (i, inputs)
    = inr (Some i,
           forward +:+ out +:+ nl +:+ tab +:+ tab +:+ "out_" +:+ pretty i
             +:+ " = self.layer_" +:+ pretty i +:+ "("
             +:+ concat_str (map argument inputs) +:+ ")"
             +:+ nl +:+ tab +:+ tab +:+ "self.layer_" +:+ pretty i
             +:+ "_store(out_" +:+ pretty i +:+ ")").
Proof.
  intros H. destruct (block_total self i inputs H) as [out Hout].
  exists out. rewrite execute_closed, Hout. reflexivity.
Qed.

Lemma execute_call_arguments_witness :
  exists out : string,
    Network.execute mixed (Some 0, "") (1, mixed_inputs)
    = inr (Some 1,
           "" +:+ out +:+ nl +:+ tab +:+ tab +:+ "out_" +:+ pretty 1
             +:+ " = self.layer_" +:+ pretty 1 +:+ "("
             +:+ concat_str (map argument mixed_inputs) +:+ ")"
             +:+ nl +:+ tab +:+ tab +:+ "self.layer_" +:+ pretty 1
             +:+ "_store(out_" +:+ pretty 1 +:+ ")").
Proof. apply (execute_call_arguments mixed (Some 0) "" 1 mixed_inputs). reflexivity. Defined.

(** *** No check on the sources of edges *)










(** ** The program assembler *)

Section Assembler.

Variable objects_get : string -> result Layer.t.
Variable os : string -> string -> io.

Lemma declare_raises (self : Network.t) (st : option nat * string)
    (item : nat * (string * list (string * pyval))) :
  exists e : exn, Network.declare objects_get self st item = inl e.
Proof.
  destruct st as [i0 layers], item as [i [layer_type parameters]].
  unfold Network.declare.
  destruct (objects_get layer_type) as [e|layer]; [now exists e|].
  cbn [bind Layer.truthy negb ret].
  destruct (Layer.construct layer parameters (lower (Network.type self))) as [e|c];
    [now exists e|].
  now exists NotImplementedError.
Qed.

Lemma declare_store_hook (self : Network.t) (st : option nat * string) (i : nat)
    (layer_type : string) (parameters : list (string * pyval)) (layer : Layer.t)
    (declaration : string) :
  objects_get layer_type = inr layer ->
  Layer.construct layer parameters (lower (Network.type self)) = inr declaration ->
  Network.declare objects_get self st (i, (layer_type, parameters)) = inl NotImplementedError.
Proof.
  intros Hget Hc. destruct st as [i0 layers]. unfold Network.declare.
  rewrite Hget. cbn [bind Layer.truthy negb ret]. now rewrite Hc.
Qed.

Lemma network_nonempty_raises (self : Network.t) :
  Network.layers self <> [] ->
  exists e : exn, Network.network objects_get self = inl e.
Proof.
  intros Hne. unfold Network.network.
  destruct (dict_get imports (lower (Network.type self))) as [e|import]; [now exists e|].
  cbn [bind]. destruct (Network.layers self) as [|item rest]; [congruence|].
  unfold enumerate. cbn [enumerate_from for_each].
  destruct (declare_raises self
              (None, nl +:+ tab +:+ "def __init__(self):" +:+ nl +:+ nl +:+ tab
                        +:+ "super().__init__()") (0, item)) as [e He].
  rewrite He. now exists e.
Qed.

Lemma imports_pytorch (type : string) :
  lower type = pytorch ->
  dict_get imports (lower type) = inr ("import torch" +:+ nl +:+ "import torch.nn as nn").
Proof. intros ->. reflexivity. Qed.

Lemma imports_other (type : string) :
  String.eqb pytorch (lower type) = false ->
  dict_get imports (lower type) = inl (KeyError (lower type)).
Proof. intros H. unfold imports. cbn [dict_get]. now rewrite H. Qed.

(** C5, amended. Compiling a network with no instance and no graph entry
    fails before a return statement is emitted and before the artifact is
    touched: for the backend pytorch with the unbound local [i] that the
    return statement reads, for any other backend with the missing key of
    the import table. *)
Theorem empty_network_fails (self : Network.t) (fs : gmap string string) :
  Network.layers self = [] ->
  Network.graph self = [] ->
  Network.construct objects_get os self fs
  = (fs, inl (if String.eqb pytorch (lower (Network.type self))
              then UnboundLocalError "i"
              else KeyError (lower (Network.type self)))).
Proof.
  intros Hl Hg. unfold Network.construct, Network.network.
  destruct (String.eqb pytorch (lower (Network.type self))) eqn:Hty.
  - apply String.eqb_eq in Hty. rewrite imports_pytorch by easy.
    cbn [bind]. rewrite Hl. cbn [enumerate enumerate_from for_each ret bind].
    unfold Network.forward. rewrite Hg. reflexivity.
  - now rewrite imports_other.
Qed.

(** A failure of the generation is the failure of the pass, and leaves
    every file as it was. *)
Lemma generation_failure_keeps_files (self : Network.t) (fs : gmap string string)
    (e : exn) :
  Network.network objects_get self = inl e ->
  Network.construct objects_get os self fs = (fs, inl e).
Proof. intros H. unfold Network.construct. now rewrite H. Qed.


(** A compile pass that completes has written the whole program text at
    the path read from the instance, and nothing else. *)
Lemma completed_compile_writes (self : Network.t) (fs fs' : gmap string string) :
  Network.construct objects_get os self fs = (fs', inr tt) ->
  exists path code : string,
    Network.interpreter_path self = Some path
    /\ Network.network objects_get self = inr code
    /\ os path code = Written
    /\ fs' = <[path := code]> fs.
Proof.
  unfold Network.construct, Network._overwrite.
  destruct (Network.network objects_get self) as [e'|code]; [discriminate|].
  destruct (Network.interpreter_path self) as [path|]; [|discriminate].
  destruct (os path code) as [|e|e reached] eqn:Hos; try discriminate.
  intros H. injection H as <-. now exists path, code.
Qed.

(** C10, amended. Compiling a network with at least one instance always
    ends in an exception, with no file touched.  When the backend is
    pytorch and the first instance resolves to a template that binds its
    parameters, the exception is the [NotImplementedError] of the store
    hook. *)
Theorem nonempty_network_never_compiles (self : Network.t) (fs : gmap string string) :
  Network.layers self <> [] ->
  exists e : exn,
    Network.construct objects_get os self fs = (fs, inl e)
    /\ (forall (layer_type : string) (parameters : list (string * pyval))
               (rest : list (string * list (string * pyval))) (layer : Layer.t)
               (declaration : string),
          Network.layers self = (layer_type, parameters) :: rest ->
          lower (Network.type self) = pytorch ->
          objects_get layer_type = inr layer ->
          Layer.construct layer parameters pytorch = inr declaration ->
          e = NotImplementedError).
Proof.
  intros Hne. destruct (network_nonempty_raises self Hne) as [e He].
  exists e. split.
  - unfold Network.construct. now rewrite He.
  - intros layer_type parameters rest layer declaration Hl Hty Hget Hc.
    unfold Network.network in He. rewrite imports_pytorch in He by exact Hty.
    cbn [bind] in He. rewrite Hl in He. unfold enumerate in He.
    cbn [enumerate_from for_each] in He.
    rewrite (declare_store_hook self _ 0 layer_type parameters layer declaration) in He.
    + cbn [bind] in He. congruence.
    + exact Hget.
    + now rewrite Hty.
Qed.

End Assembler.

Lemma empty_network_fails_witness :
  Network.construct registry no_faults (empty "PyTorch") disk = (disk, inl (UnboundLocalError "i")).
Proof. apply (empty_network_fails registry no_faults (empty "PyTorch") disk); reflexivity. Defined.

(** C5, as stated, fails: a network with no instance and one graph entry is
    assembled in full, its forward routine returning [out_0] of a layer
    that is nowhere declared; the pass writes that text when the instance
    carries a path, and otherwise ends on reading the path.  And a network
    with no instance and no graph entry for the backend tensorflow ends
    with the exception of the import table, the same as a network of that
    backend with an instance. *)
Lemma zero_instances_emit_return :
  Network.network registry (hollow "0a30" None) = inr hollow_text
  /\ Network.construct registry no_faults (hollow "0a30" (Some "networks/net.py")) disk
     = (<["networks/net.py" := hollow_text]> disk, inr tt)
  /\ Network.construct registry no_faults (hollow "0a30" None) disk
     = (disk, inl (AttributeError "interpreter_path"))
  /\ Network.construct registry no_faults (empty "tensorflow") disk
     = (disk, inl (KeyError "tensorflow"))
  /\ Network.construct registry no_faults tf_single disk = (disk, inl (KeyError "tensorflow")).
Proof. repeat split; reflexivity. Qed.



Lemma network_path_constant (parent sep str_id : string) (n1 n2 : Network.t) :
  Network.network_path parent sep str_id n1 = Network.network_path parent sep str_id n2.
Proof. reflexivity. Qed.

(** C8. Two networks with distinct identifiers have one and the same
    [network_path]; and a pass that has assembled its text ends on reading
    [interpreter_path], which the class does not declare, with nothing
    written. *)
Theorem artifact_location_ignores_id (os : string -> string -> io) :
  Network.id (hollow "0a30" None) <> Network.id (hollow "0a31" None)
  /\ Network.network_path "/srv/nlab" "/" "<django.db.models.fields.UUIDField>"
       (hollow "0a30" None)
     = Network.network_path "/srv/nlab" "/" "<django.db.models.fields.UUIDField>"
         (hollow "0a31" None)
  /\ Network.network registry (hollow "0a30" None) = inr hollow_text
  /\ Network.construct registry os (hollow "0a30" None) ∅
     = (∅, inl (AttributeError "interpreter_path")).
Proof. split; [discriminate|]. repeat split; reflexivity. Qed.

(** C10, as stated, fails: the single instance of [tf_single] resolves to a
    template, and the pass ends with the [KeyError] of the import table. *)
Lemma store_hook_not_reached :
  registry "Dense" = inr dense
  /\ Network.construct registry no_faults tf_single disk = (disk, inl (KeyError "tensorflow")).
Proof. split; reflexivity. Qed.

Lemma nonempty_network_never_compiles_witness :
  exists e : exn,
    Network.construct registry no_faults chain disk = (disk, inl e)
    /\ (forall (layer_type : string) (parameters : list (string * pyval))
               (rest : list (string * list (string * pyval))) (layer : Layer.t)
               (declaration : string),
          Network.layers chain = (layer_type, parameters) :: rest ->
          lower (Network.type chain) = pytorch ->
          registry layer_type = inr layer ->
          Layer.construct layer parameters pytorch = inr declaration ->
          e = NotImplementedError).
Proof. apply (nonempty_network_never_compiles registry no_faults chain disk). discriminate. Defined.

(** ** Further properties of the parameter binder *)

Lemma dict_get_error {V : Type} (d : list (string * V)) (key : string) (e : exn) :
  dict_get d key = inl e -> e = KeyError key.
Proof.
  induction d as [|[k v] d IH]; cbn [dict_get].
  - unfold raise. congruence.
  - destruct (String.eqb k key); [discriminate|exact IH].
Qed.

Lemma comprehension_error {A B : Type} (f : A -> result B) (l : list A) (e : exn) :
  comprehension f l = inl e -> exists x : A, In x l /\ f x = inl e.
Proof.
  induction l as [|a l IH]; cbn [comprehension]; [discriminate|].
  destruct (f a) as [e'|b] eqn:Hfa.
  - cbn [bind]. intros H. injection H as <-. exists a. split; [now left|exact Hfa].
  - cbn [bind]. destruct (comprehension f l) as [e'|bs]; [|discriminate].
    cbn [bind]. intros H. injection H as <-.
    destruct (IH eq_refl) as [x [Hin Hx]]. exists x. split; [now right|exact Hx].
Qed.

Lemma comprehension_length {A B : Type} (f : A -> result B) (l : list A) (ys : list B) :
  comprehension f l = inr ys -> length ys = length l.
Proof.
  revert ys. induction l as [|a l IH]; intros ys; cbn [comprehension].
  - unfold ret. intros H. now injection H as <-.
  - destruct (f a) as [e|b]; [discriminate|]. cbn [bind].
    destruct (comprehension f l) as [e|bs]; [discriminate|]. cbn [bind ret].
    intros H. injection H as <-. cbn [length]. now rewrite (IH bs eq_refl).
Qed.

Lemma getitem_0_error (j : json) (e : exn) :
  getitem_0 j = inl e -> e = IndexError \/ e = KeyError "0" \/ e = TypeError.
Proof.
  destruct j as [| | |s|items|members]; cbn [getitem_0]; unfold raise, ret.
  - intros H. injection H as <-. tauto.
  - intros H. injection H as <-. tauto.
  - intros H. injection H as <-. tauto.
  - destruct s; [|discriminate]. intros H. injection H as <-. tauto.
  - destruct items; [|discriminate]. intros H. injection H as <-. tauto.
  - intros H. injection H as <-. tauto.
Qed.

Lemma possible_parameters_value_error (self : Layer.t) (mode : string) (e : exn) :
  Layer.possible_parameters self mode = inl e ->
  is_ValueError e = true ->
  Layer.parameters self = None /\ e = JSONDecodeError.
Proof.
  unfold Layer.possible_parameters. intros H Hv.
  destruct (Layer.parameters self) as [schema|].
  - exfalso. cbn [json_loads bind ret] in H.
    destruct (getitem_str schema mode) as [e'|entries] eqn:Hg.
    + cbn [bind] in H. injection H as ->.
      destruct schema; cbn [getitem_str] in Hg; unfold raise in Hg;
        try (injection Hg as <-; discriminate).
      apply dict_get_error in Hg. subst. discriminate.
    + cbn [bind] in H. destruct (py_iter entries) as [e'|l] eqn:Hi.
      * cbn [bind] in H. injection H as ->.
        destruct entries; cbn [py_iter] in Hi; unfold raise, ret in Hi;
          try discriminate; injection Hi as <-; discriminate.
      * cbn [bind] in H. apply comprehension_error in H as [x [_ Hx]].
        apply getitem_0_error in Hx as [Hx|[Hx|Hx]]; subst; discriminate.
  - cbn [json_loads bind] in H. unfold raise in H. injection H as <-. now split.
Qed.

(** X1. The binder ends in a [ValueError], the class or a subclass, in two
    cases only: the parameters text of the template is not JSON, and the
    exception is the decoder's; or the schema entry of the mode was read
    and the mode is neither pytorch nor tensorflow, and the exception
    names the mode.  An invalid mode without schema entry is thus not
    reported as such. *)
Theorem construct_value_errors (self : Layer.t) (parameters : list (string * pyval))
    (mode : string) (e : exn) :
  Layer.construct self parameters mode = inl e /\ is_ValueError e = true
  <-> (Layer.parameters self = None /\ e = JSONDecodeError)
      \/ ((exists possible : list json, Layer.possible_parameters self mode = inr possible)
          /\ mode <> pytorch /\ mode <> tensorflow
          /\ e = ValueError ("Invalid construction mode " +:+ mode)).
Proof.
  unfold Layer.construct, Layer.head. split.
  - intros [H Hv].
    destruct (Layer.possible_parameters self mode) as [e'|possible] eqn:Hp.
    + cbn [bind] in H. injection H as ->. left.
      exact (possible_parameters_value_error self mode e Hp Hv).
    + cbn [bind] in H. right.
      destruct (String.eqb_spec mode pytorch) as [|Hpy]; [discriminate|].
      destruct (String.eqb_spec mode tensorflow) as [|Htf]; [discriminate|].
      cbn [bind] in H. unfold raise in H. injection H as <-.
      split; [now exists possible|]. now repeat split.
  - intros [[Hn ->]|[[possible Hp] [Hpy [Htf ->]]]].
    + unfold Layer.possible_parameters. rewrite Hn. now split.
    + rewrite Hp. cbn [bind]. apply String.eqb_neq in Hpy, Htf.
      rewrite Hpy, Htf. now split.
Qed.

Lemma construct_value_errors_witness :
  Layer.construct dense dense_parameters "pennylane"
  = inl (ValueError "Invalid construction mode pennylane")
  /\ is_ValueError (ValueError "Invalid construction mode pennylane") = true.
Proof.
  apply (construct_value_errors dense dense_parameters "pennylane").
  right. split; [now exists [JStr "wires"]|]. now repeat split.
Defined.

(** Without a schema entry the same mode is a missing key, and a schema
    that is not JSON is reported before the mode is looked at. *)
Example unknown_mode_is_key_error :
  Layer.construct dense dense_parameters "jax" = inl (KeyError "jax")
  /\ Layer.construct unparsed dense_parameters "jax" = inl JSONDecodeError.
Proof. split; reflexivity. Qed.

Lemma first_char_short (n : string) : (String.length (first_char n) <= 1)%nat.
Proof. destruct n; cbn; lia. Qed.

(** X2. When the schema entry of the backend is an array of bare names,
    the whitelist is made of their first characters, so that no key of two
    or more characters is retained. *)
Theorem bare_names_whitelist_first_characters (self : Layer.t) (mode : string)
    (members : list (string * json)) (names : list string) :
  Layer.parameters self = Some (JObj members) ->
  dict_get members mode = inr (JArr (map JStr names)) ->
  Forall (fun n => n <> "") names ->
  Layer.possible_parameters self mode = inr (map (fun n => JStr (first_char n)) names)
  /\ (forall key : string,
        (1 < String.length key)%nat ->
        py_in key (map (fun n => JStr (first_char n)) names) = false).
Proof.
  intros Hp Hm Hne. split.
  - unfold Layer.possible_parameters. rewrite Hp.
    cbn [json_loads bind ret getitem_str]. rewrite Hm. cbn [bind py_iter ret].
    clear Hm. induction Hne as [|n names Hn _ IH]; [reflexivity|].
    cbn [map comprehension]. destruct n as [|c n]; [congruence|].
    cbn [getitem_0 bind ret first_char]. now rewrite IH.
  - intros key Hlen. unfold py_in. clear Hm Hne.
    induction names as [|n names IH]; [reflexivity|].
    cbn [map existsb str_eq]. rewrite IH, orb_false_r.
    apply String.eqb_neq. intros ->. pose proof (first_char_short n). lia.
Qed.

Lemma bare_names_whitelist_first_characters_witness :
  Layer.possible_parameters bare "pytorch" = inr [JStr "u"; JStr "b"]
  /\ (forall key : string,
        (1 < String.length key)%nat ->
        py_in key [JStr "u"; JStr "b"] = false).
Proof.
  apply (bare_names_whitelist_first_characters bare "pytorch"
           [("pytorch", JArr [JStr "units"; JStr "bias"])] ["units"; "bias"]).
  - reflexivity.
  - reflexivity.
  - repeat constructor; discriminate.
Defined.

(** With such a schema both parameters of the sample mapping are dropped. *)
Example bare_declaration :
  Layer.construct bare dense_parameters "pytorch" = inr "nn.Linear()".
Proof. reflexivity. Qed.

(** X3. A template without a callable for pytorch is bound all the same:
    the declaration is headed by the text None. *)
Theorem missing_callable_prints_None (self : Layer.t)
    (parameters : list (string * pyval)) (possible : list json) :
  Layer.pytorch self = None ->
  Layer.possible_parameters self pytorch = inr possible ->
  Layer.construct self parameters pytorch
  = inr ("None(" +:+ concat_str (map binding (retained possible parameters)) +:+ ")").
Proof.
  intros Hc Hp. unfold Layer.construct. rewrite Hp. cbn [bind].
  unfold Layer.head. cbn [String.eqb]. rewrite Hc.
  change (String.eqb pytorch pytorch) with true. cbn [fstr bind ret].
  now rewrite fold_bind_parameter, append_assoc.
Qed.

Lemma missing_callable_prints_None_witness :
  Layer.construct uncallable dense_parameters pytorch = inr "None(units=10,)".
Proof.
  apply (missing_callable_prints_None uncallable dense_parameters [JStr "units"]);
    reflexivity.
Defined.

(** ** Printing a template *)

Lemma chars_length (s : string) : length (chars s) = String.length s.
Proof.
  unfold chars. rewrite length_map.
  induction s as [|c s IH]; [reflexivity|]. cbn. now rewrite IH.
Qed.

Lemma py_iter_len (j : json) (l : list json) :
  py_iter j = inr l -> py_len j = inr (length l).
Proof.
  destruct j as [| | |s|items|members]; cbn [py_iter py_len]; unfold ret, raise;
    try discriminate; intros H; injection H as <-.
  - now rewrite chars_length.
  - reflexivity.
  - now rewrite length_map.
Qed.

Lemma count_possible_parameters (self : Layer.t) (backend : string) (possible : list json) :
  Layer.possible_parameters self backend = inr possible ->
  Layer.count self backend = inr (length possible).
Proof.
  unfold Layer.possible_parameters, Layer.count.
  destruct (json_loads (Layer.parameters self)) as [e|schema]; [discriminate|].
  cbn [bind]. destruct (getitem_str schema backend) as [e|entries]; [discriminate|].
  cbn [bind]. destruct (py_iter entries) as [e|l] eqn:Hi; [discriminate|].
  cbn [bind]. intros H. apply comprehension_length in H.
  rewrite (py_iter_len entries l Hi). now rewrite H.
Qed.

(** X4. For a template that has a callable for each backend, and whose
    schema the binder can read for each, the printed form lists the three
    backends in the order pytorch, pennylane, tensorflow, each with the
    number of names the binder whitelists for it. *)
Theorem str_counts_whitelists (self : Layer.t) (p1 p2 p3 : list json) :
  py_bool (Layer.pytorch self) = true ->
  py_bool (Layer.pennylane self) = true ->
  py_bool (Layer.tensorflow self) = true ->
  Layer.possible_parameters self pytorch = inr p1 ->
  Layer.possible_parameters self pennylane = inr p2 ->
  Layer.possible_parameters self tensorflow = inr p3 ->
  Layer.__str__ self
  = inr (Layer.name self +:+ ": <pytorch> " +:+ pretty (length p1)
           +:+ " <pennylane> " +:+ pretty (length p2)
           +:+ " <tensorflow> " +:+ pretty (length p3)).
Proof.
  intros B1 B2 B3 H1 H2 H3. unfold Layer.__str__. rewrite B1, B2, B3.
  rewrite (count_possible_parameters _ _ _ H1), (count_possible_parameters _ _ _ H2),
    (count_possible_parameters _ _ _ H3).
  cbn [bind ret]. now rewrite !append_empty_l, !append_assoc.
Qed.

Lemma str_counts_whitelists_witness :
  Layer.__str__ dense = inr "Dense: <pytorch> 1 <pennylane> 1 <tensorflow> 1".
Proof.
  apply (str_counts_whitelists dense [JStr "units"] [JStr "wires"] [JStr "units"]);
    reflexivity.
Defined.

(** X5. A template with no callable prints as its name and a colon; its
    schema is not read, so it need not even be JSON. *)
Theorem str_without_callable (self : Layer.t) :
  py_bool (Layer.pytorch self) = false ->
  py_bool (Layer.pennylane self) = false ->
  py_bool (Layer.tensorflow self) = false ->
  Layer.__str__ self = inr (Layer.name self +:+ ":").
Proof.
  intros B1 B2 B3. unfold Layer.__str__. now rewrite B1, B2, B3.
Qed.

Lemma str_without_callable_witness : Layer.__str__ unparsed = inr "Raw:".
Proof. apply (str_without_callable unparsed); reflexivity. Defined.

(** X6. Printing a template succeeds exactly when, for each backend it has
    a callable for, the schema holds a sized entry for that backend. *)
Theorem str_succeeds_iff (self : Layer.t) :
  (exists text : string, Layer.__str__ self = inr text)
  <-> (py_bool (Layer.pytorch self) = true ->
       exists n : nat, Layer.count self pytorch = inr n)
      /\ (py_bool (Layer.pennylane self) = true ->
          exists n : nat, Layer.count self pennylane = inr n)
      /\ (py_bool (Layer.tensorflow self) = true ->
          exists n : nat, Layer.count self tensorflow = inr n).
Proof.
  unfold Layer.__str__.
  destruct (py_bool (Layer.pytorch self)), (py_bool (Layer.pennylane self)),
    (py_bool (Layer.tensorflow self));
    destruct (Layer.count self pytorch) as [e1|n1],
      (Layer.count self pennylane) as [e2|n2],
      (Layer.count self tensorflow) as [e3|n3];
    cbn [bind ret]; split;
    try (intros [text H]; discriminate);
    try (intros _; now eauto);
    try (intros [H1 [H2 H3]];
         first [ destruct (H1 eq_refl); discriminate
               | destruct (H2 eq_refl); discriminate
               | destruct (H3 eq_refl); discriminate ]);
    try (intros _; repeat split; intros; first [discriminate | now eauto]).
Qed.

(** A template with a callable for pytorch but no schema entry for it
    cannot be printed. *)
Example str_raises :
  Layer.__str__ {| Layer.parameters := Some (JObj []);
                   Layer.name := "Conv";
                   Layer.pytorch := Some "nn.Conv2d";
                   Layer.pennylane := None;
                   Layer.tensorflow := None;
                   Layer.id := "5f10" |}
  = inl (KeyError "pytorch").
Proof. reflexivity. Qed.

Lemma str_succeeds_iff_witness :
  exists text : string, Layer.__str__ bare = inr text.
Proof.
  apply (str_succeeds_iff bare). repeat split; intros H; try discriminate H.
  now exists 2.
Defined.

(** ** Further properties of the forward emitter *)


Lemma rebinding_pytorch (self : Network.t) (input_ : Network.edge) :
  lower (Network.type self) = pytorch ->
  relu_or_plain input_ = true ->
  rebinding self input_ = inr (relu_rebinding input_).
Proof.
  intros Hty Hr. unfold rebinding, relu_rebinding.
  destruct input_ as [[layer [a|]]|]; try reflexivity.
  rewrite Hty. cbn [activations dict_get bind ret].
  change (String.eqb pytorch pytorch) with true. cbn [bind ret dict_get].
  cbn [relu_or_plain] in Hr. rewrite Hr. reflexivity.
Qed.

Lemma rebindings_pytorch (self : Network.t) (inputs : list Network.edge) :
  lower (Network.type self) = pytorch ->
  forallb relu_or_plain inputs = true ->
  comprehension (rebinding self) inputs = inr (map relu_rebinding inputs).
Proof.
  intros Hty. induction inputs as [|e inputs IH]; [reflexivity|].
  cbn [forallb]. intros H. apply andb_true_iff in H as [He Hl].
  cbn [comprehension map]. rewrite (rebinding_pytorch self e Hty He).
  cbn [bind]. now rewrite (IH Hl).
Qed.

(** X7. Under the backend pytorch, when every activation named on the edges
    of instance [i] is relu up to case, the text emitted for [i] is one
    rebinding [src = nn.ReLu()(src)] per activated edge, in edge order,
    followed by the call and the store statement.  A source read through
    two activated edges is thus rebound twice. *)
Theorem execute_rebinds_per_edge (self : Network.t) (i0 : option nat) (forward : string)
    (i : nat) (inputs : list Network.edge) :
  lower (Network.type self) = pytorch ->
  forallb relu_or_plain inputs = true ->
  Network.execute self (i0, forward) (i, inputs)
  = inr (Some i,
         forward +:+ concat_str (map relu_rebinding inputs)
           +:+ nl +:+ tab +:+ tab +:+ "out_" +:+ pretty i
           +:+ " = self.layer_" +:+ pretty i +:+ "(" +:+ arguments inputs +:+ ")"
           +:+ nl +:+ tab +:+ tab +:+ "self.layer_" +:+ pretty i
           +:+ "_store(out_" +:+ pretty i +:+ ")").
Proof.
  intros Hty Hr. rewrite execute_closed. unfold block. cbn [fst snd].
  now rewrite (rebindings_pytorch self inputs Hty Hr).
Qed.

Lemma execute_rebinds_per_edge_witness :
  Network.execute chain (Some 1, "")
    (2, [Some (PyStr "out_0", Some "ReLU"); Some (PyStr "out_0", Some "relu")])
  = inr (Some 2,
         nl +:+ tab +:+ tab +:+ "out_0 = nn.ReLu()(out_0)"
         +:+ nl +:+ tab +:+ tab +:+ "out_0 = nn.ReLu()(out_0)"
         +:+ nl +:+ tab +:+ tab +:+ "out_2 = self.layer_2(out_0,out_0,)"
         +:+ nl +:+ tab +:+ tab +:+ "self.layer_2_store(out_2)").
Proof.
  apply (execute_rebinds_per_edge chain (Some 1) "" 2
           [Some (PyStr "out_0", Some "ReLU"); Some (PyStr "out_0", Some "relu")]);
    reflexivity.
Defined.

Lemma enumerate_from_In {A : Type} (start i : nat) (x : A) (l : list A) :
  In (i, x) (enumerate_from start l) -> In x l.
Proof.
  revert start. induction l as [|a l IH]; intros start; cbn [enumerate_from In]; [tauto|].
  intros [H|H]; [left; congruence|right; now apply (IH (S start))].
Qed.

Lemma rebinding_error (self : Network.t) (input_ : Network.edge) (e : exn) :
  rebinding self input_ = inl e ->
  exists (layer : pyval) (activation : string),
    input_ = Some (layer, Some activation)
    /\ (e = KeyError (lower (Network.type self)) \/ e = KeyError (lower activation)).
Proof.
  unfold rebinding. destruct input_ as [[layer [a|]]|]; try discriminate.
  intros H. exists layer, a. split; [reflexivity|].
  destruct (dict_get activations (lower (Network.type self))) as [e'|table] eqn:Ht.
  - cbn [bind] in H. injection H as <-. left. now apply dict_get_error in Ht.
  - cbn [bind] in H. destruct (dict_get table (lower a)) as [e'|f] eqn:Hf; [|discriminate].
    cbn [bind] in H. injection H as <-. right. now apply dict_get_error in Hf.
Qed.

(** X8. The forward emitter ends in an exception in two ways only: an
    activated edge whose backend or activation name is missing from the
    activation table, reported as the [KeyError] of the lowercased name; or
    an empty graph with no index left by the declaration loop, reported as
    the unbound local [i]. *)
Theorem forward_exceptions (self : Network.t) (i : option nat) (e : exn) :
  Network.forward self i = inl e ->
  (e = UnboundLocalError "i" /\ Network.graph self = [] /\ i = None)
  \/ (exists (inputs : list Network.edge) (layer : pyval) (activation : string),
        In inputs (Network.graph self)
        /\ In (Some (layer, Some activation)) inputs
        /\ (e = KeyError (lower (Network.type self)) \/ e = KeyError (lower activation))).
Proof.
  rewrite forward_closed.
  destruct (comprehension (block self) (enumerate (Network.graph self))) as [e'|bs] eqn:Hb.
  - cbn [bind]. intros H. injection H as ->. right.
    apply comprehension_error in Hb as [[k inputs] [Hin Hblock]].
    unfold block in Hblock. cbn [fst snd] in Hblock.
    destruct (comprehension (rebinding self) inputs) as [e'|rs] eqn:Hr; [|discriminate].
    cbn [bind] in Hblock. injection Hblock as ->.
    apply comprehension_error in Hr as [input_ [Hin' Herr]].
    apply rebinding_error in Herr as [layer [a [-> He]]].
    exists inputs, layer, a. split; [|now split].
    exact (enumerate_from_In 0 k inputs _ Hin).
  - cbn [bind]. destruct (Network.graph self) as [|inputs g] eqn:Hg.
    + cbn. destruct i; [discriminate|]. unfold raise. intros H. injection H as <-.
      left. now repeat split.
    + unfold enumerate. rewrite last_index_enumerate_from by discriminate. discriminate.
Qed.

Lemma forward_exceptions_witness :
  (KeyError "tanh" = UnboundLocalError "i"
   /\ Network.graph (sample "0a40" "pytorch" [] [[Some (PyInt 0, Some "Tanh")]] None) = []
   /\ @None nat = None)
  \/ (exists (inputs : list Network.edge) (layer : pyval) (activation : string),
        In inputs
           (Network.graph (sample "0a40" "pytorch" [] [[Some (PyInt 0, Some "Tanh")]] None))
        /\ In (Some (layer, Some activation)) inputs
        /\ (KeyError "tanh" = KeyError "pytorch" \/ KeyError "tanh" = KeyError (lower activation))).
Proof.
  apply (forward_exceptions
           (sample "0a40" "pytorch" [] [[Some (PyInt 0, Some "Tanh")]] None) None).
  reflexivity.
Defined.

(** ** Further properties of the program assembler *)




Lemma forward_total (self : Network.t) (i : option nat) :
  Network.graph self <> [] -> known_activations self = true ->
  exists text : string, Network.forward self i = inr text.
Proof.
  intros Hne Hk.
  destruct (comprehension_total (block self) (enumerate (Network.graph self))
              (blocks_total self 0 _ Hk)) as [bs [Hbs _]].
  rewrite forward_closed, Hbs. cbn [bind]. unfold enumerate.
  rewrite (last_index_enumerate_from i 0 _ Hne). now eexists.
Qed.


Section AssemblerOutcomes.

Variable objects_get : string -> result Layer.t.
Variable os : string -> string -> io.



(** X9. A network whose backend is not pytorch, up to case, is never
    compiled: the pass ends with the [KeyError] of the import table on the
    lowercased backend name, whatever the instances, the graph and the
    registry, and touches no file. *)
Theorem unsupported_backend_is_key_error (self : Network.t) (fs : gmap string string) :
  lower (Network.type self) <> pytorch ->
  Network.construct objects_get os self fs
  = (fs, inl (KeyError (lower (Network.type self)))).
Proof.
  intros Hty. unfold Network.construct, Network.network.
  rewrite imports_other; [reflexivity|].
  apply String.eqb_neq. congruence.
Qed.

(** X10. For the backend pytorch, the first instance alone decides how the
    pass ends: with the exception of its lookup, else with the exception of
    binding its parameters, else with the [NotImplementedError] of the
    store hook.  The later instances and the graph are not examined. *)
Theorem first_instance_decides (self : Network.t) (fs : gmap string string)
    (layer_type : string) (parameters : list (string * pyval))
    (rest : list (string * list (string * pyval))) :
  Network.layers self = (layer_type, parameters) :: rest ->
  lower (Network.type self) = pytorch ->
  Network.construct objects_get os self fs
  = (fs, inl match objects_get layer_type with
             | inl e => e
             | inr layer =>
                 match Layer.construct layer parameters pytorch with
                 | inl e => e
                 | inr _ => NotImplementedError
                 end
             end).
Proof.
  intros Hl Hty. unfold Network.construct, Network.network.
  rewrite imports_pytorch by exact Hty. cbn [bind]. rewrite Hl.
  unfold enumerate. cbn [enumerate_from for_each]. unfold Network.declare.
  destruct (objects_get layer_type) as [e|layer]; [reflexivity|].
  cbn [bind Layer.truthy negb ret]. rewrite Hty.
  destruct (Layer.construct layer parameters pytorch); reflexivity.
Qed.


(** X12. A pass that completes has changed one file only: the path read
    from the instance holds the whole program text, and every other path
    holds what it held before. *)
Theorem completed_compile_touches_one_file (self : Network.t)
    (fs fs' : gmap string string) :
  Network.construct objects_get os self fs = (fs', inr tt) ->
  exists path code : string,
    Network.interpreter_path self = Some path
    /\ Network.network objects_get self = inr code
    /\ fs' !! path = Some code
    /\ (forall other : string, other <> path -> fs' !! other = fs !! other).
Proof.
  intros H.
  destruct (completed_compile_writes objects_get os self fs fs' H)
    as [path [code [Hp [Hn [_ ->]]]]].
  exists path, code. split; [exact Hp|]. split; [exact Hn|]. split.
  - apply lookup_insert_eq.
  - intros other Hne. now apply lookup_insert_ne.
Qed.

(** X13. The backend name counts up to case only: two definitions that
    agree on name, instances and graph, and whose backends have the same
    lowercase form, compile to the same text or end in the same exception. *)
Theorem backend_case_insensitive (s1 s2 : Network.t) :
  Network.name s1 = Network.name s2 ->
  lower (Network.type s1) = lower (Network.type s2) ->
  Network.layers s1 = Network.layers s2 ->
  Network.graph s1 = Network.graph s2 ->
  Network.network objects_get s1 = Network.network objects_get s2.
Proof.
  destruct s1, s2. cbn [Network.name Network.type Network.layers Network.graph].
  intros -> Hty -> ->.
  unfold Network.network, Network.forward, Network.execute, Network.connect,
    Network.declare.
  cbn [Network.name Network.type Network.layers Network.graph].
  now rewrite Hty.
Qed.

End AssemblerOutcomes.

Lemma unsupported_backend_is_key_error_witness :
  Network.construct registry no_faults tf_single disk = (disk, inl (KeyError "tensorflow")).
Proof. apply (unsupported_backend_is_key_error registry no_faults tf_single disk). discriminate. Defined.

Lemma first_instance_decides_witness :
  Network.construct registry no_faults
    (sample "0a41" "PyTorch" [("Conv", []); ("Dense", [])] [[None]; [None]] None) disk
  = (disk, inl DoesNotExist).
Proof.
  apply (first_instance_decides registry no_faults
           (sample "0a41" "PyTorch" [("Conv", []); ("Dense", [])] [[None]; [None]] None)
           disk "Conv" [] [("Dense", [])]); reflexivity.
Defined.


(** With the same network and files, a missing directory ends the pass in
    the exception of [open], with every file as it was. *)
Example missing_directory :
  Network.construct registry full_disk (hollow "0a30" (Some "scripts/net.py")) disk
  = (disk, inl (OSError "ENOENT")).
Proof. reflexivity. Qed.



Lemma completed_compile_touches_one_file_witness :
  exists path code : string,
    Network.interpreter_path (hollow "0a30" (Some "networks/new.py")) = Some path
    /\ Network.network registry (hollow "0a30" (Some "networks/new.py")) = inr code
    /\ <["networks/new.py" := hollow_text]> disk !! path = Some code
    /\ (forall other : string,
          other <> path ->
          <["networks/new.py" := hollow_text]> disk !! other = disk !! other).
Proof.
  apply (completed_compile_touches_one_file registry no_faults
           (hollow "0a30" (Some "networks/new.py")) disk).
  reflexivity.
Defined.

Lemma backend_case_insensitive_witness :
  Network.type (hollow "0a30" None) <> Network.type (sample "0a43" "PyTorch" [] [[None]] None)
  /\ Network.network registry (hollow "0a30" None)
     = Network.network registry (sample "0a43" "PyTorch" [] [[None]] None).
Proof.
  split; [discriminate|].
  apply (backend_case_insensitive registry (hollow "0a30" None)
           (sample "0a43" "PyTorch" [] [[None]] None));
    reflexivity.
Defined.
